(** * Persisted-state migration of the canvas-settings and UI slices

    A shallow embedding of
    [invokeai/frontend/web/src/features/controlLayers/store/canvasSettingsSlice.ts]
    (the canvas-settings slice, followed in the same file by the UI slice)
    together with the properties of its two [migrate] functions, its
    persistence configurations and its toggle reducers. *)

From Stdlib Require Import Floats ZArith.
From stdpp Require Import gmap strings list.

Open Scope Z_scope.

(** ** JavaScript values

    The migrators are typed [(state: any): any]: they receive whatever
    [JSON.parse] produced from the persisted snapshot.  A value is a
    primitive or a plain object; a plain object is a finite map from
    property names to values.  Numbers are IEEE 754 doubles, as in
    JavaScript.  Arrays, which neither slice stores, are left out. *)
Module JS.

#[warnings="-register-all"]
Inductive value : Type :=
  | VUndefined
  | VNull
  | VBool (b : bool)
  | VNum (n : float)
  | VStr (s : string)
  | VObj (o : gmap string value).

Abbreviation object := (gmap string value).

(** [k in o] on a plain object. *)
Definition has_property (k : string) (o : object) : bool :=
  bool_decide (is_Some (o !! k)).

(** [o.k]: a missing property reads as [undefined]. *)
Definition get_property (k : string) (o : object) : value :=
  default VUndefined (o !! k).

(** [o.k = v]. *)
Definition set_property (k : string) (v : value) (o : object) : object :=
  <[k := v]> o.

(** [v === n] for a number literal [n]: true only when [v] is a number
    that compares equal to [n] ([NaN] equals nothing, no coercion from
    strings or booleans). *)
Definition strict_equals_number (v : value) (n : float) : bool :=
  match v with
  | VNum f => PrimFloat.eqb f n
  | _ => false
  end.

(** The JavaScript number of a small non-negative integer. *)
Definition number_of_Z (z : Z) : float :=
  PrimFloat.of_uint63 (Uint63.of_Z z).

(** How a call ends: it returns a value, or it throws. *)
Inductive error : Type := TypeError.

Inductive completion (A : Type) : Type :=
  | Return (a : A)
  | Throw (e : error).
Arguments Return {A} a.
Arguments Throw {A} e.

(** Sequencing: what follows a call runs on the value it returned; a
    throw ends the sequence. *)
Definition and_then {A B} (c : completion A) (f : A → completion B) : completion B :=
  match c with
  | Return a => f a
  | Throw e => Throw e
  end.

(** [l.includes(v)] for an array [l] of strings: the elements are compared
    with [v] by value, and only a string can equal one. *)
Definition includes (l : list string) (v : value) : bool :=
  match v with
  | VStr s => bool_decide (s ∈ l)
  | _ => false
  end.

End JS.
Import JS.

(** The persistence configuration of a slice ([PersistConfig<T>] of
    [app/store/store]), with the four fields both slices fill in. *)
Module Store.

Record PersistConfig (T : Type) : Type := {
  name : string;
  initialState : T;
  migrate : value → completion value;
  persistDenylist : list string;
}.
Arguments name {T} _.
Arguments initialState {T} _.
Arguments migrate {T} _ _.
Arguments persistDenylist {T} _.

End Store.

(** ** The canvas-settings slice *)
Module CanvasSettings.

(** [RgbaColor] of [features/controlLayers/store/types]: four numeric
    channels. *)
Record RgbaColor : Type := { r : float; g : float; b : float; a : float }.

Record CanvasSettingsState : Type := {
  showHUD : bool;
  autoSave : bool;
  clipToBbox : bool;
  dynamicGrid : bool;
  invertScrollForToolWidth : bool;
  brushWidth : float;
  eraserWidth : float;
  color : RgbaColor;
  sendToCanvas : bool;
  outputOnlyMaskedRegions : bool;
  autoProcessFilter : bool;
  snapToGrid : bool;
  showProgressOnCanvas : bool;
  bboxOverlay : bool;
  preserveMask : bool;
}.

Definition initialState : CanvasSettingsState := {|
  autoSave := false;
  showHUD := true;
  clipToBbox := false;
  dynamicGrid := false;
  brushWidth := 50;
  eraserWidth := 50;
  invertScrollForToolWidth := false;
  color := {| r := 31; g := 160; b := 224; a := 1 |};
  sendToCanvas := false;
  outputOnlyMaskedRegions := false;
  autoProcessFilter := true;
  snapToGrid := true;
  showProgressOnCanvas := true;
  bboxOverlay := false;
  preserveMask := false;
|}.

(** Field assignments [state.f = v] on the slice's state: the reducers
    write to the draft they are handed, and the slice's next state is that
    draft. *)
Definition assign_showHUD (v : bool) (state : CanvasSettingsState) : CanvasSettingsState :=
  {| showHUD := v;
     autoSave := autoSave state;
     clipToBbox := clipToBbox state;
     dynamicGrid := dynamicGrid state;
     invertScrollForToolWidth := invertScrollForToolWidth state;
     brushWidth := brushWidth state;
     eraserWidth := eraserWidth state;
     color := color state;
     sendToCanvas := sendToCanvas state;
     outputOnlyMaskedRegions := outputOnlyMaskedRegions state;
     autoProcessFilter := autoProcessFilter state;
     snapToGrid := snapToGrid state;
     showProgressOnCanvas := showProgressOnCanvas state;
     bboxOverlay := bboxOverlay state;
     preserveMask := preserveMask state |}.

Definition assign_autoSave (v : bool) (state : CanvasSettingsState) : CanvasSettingsState :=
  {| showHUD := showHUD state;
     autoSave := v;
     clipToBbox := clipToBbox state;
     dynamicGrid := dynamicGrid state;
     invertScrollForToolWidth := invertScrollForToolWidth state;
     brushWidth := brushWidth state;
     eraserWidth := eraserWidth state;
     color := color state;
     sendToCanvas := sendToCanvas state;
     outputOnlyMaskedRegions := outputOnlyMaskedRegions state;
     autoProcessFilter := autoProcessFilter state;
     snapToGrid := snapToGrid state;
     showProgressOnCanvas := showProgressOnCanvas state;
     bboxOverlay := bboxOverlay state;
     preserveMask := preserveMask state |}.

Definition assign_clipToBbox (v : bool) (state : CanvasSettingsState) : CanvasSettingsState :=
  {| showHUD := showHUD state;
     autoSave := autoSave state;
     clipToBbox := v;
     dynamicGrid := dynamicGrid state;
     invertScrollForToolWidth := invertScrollForToolWidth state;
     brushWidth := brushWidth state;
     eraserWidth := eraserWidth state;
     color := color state;
     sendToCanvas := sendToCanvas state;
     outputOnlyMaskedRegions := outputOnlyMaskedRegions state;
     autoProcessFilter := autoProcessFilter state;
     snapToGrid := snapToGrid state;
     showProgressOnCanvas := showProgressOnCanvas state;
     bboxOverlay := bboxOverlay state;
     preserveMask := preserveMask state |}.

Definition assign_dynamicGrid (v : bool) (state : CanvasSettingsState) : CanvasSettingsState :=
  {| showHUD := showHUD state;
     autoSave := autoSave state;
     clipToBbox := clipToBbox state;
     dynamicGrid := v;
     invertScrollForToolWidth := invertScrollForToolWidth state;
     brushWidth := brushWidth state;
     eraserWidth := eraserWidth state;
     color := color state;
     sendToCanvas := sendToCanvas state;
     outputOnlyMaskedRegions := outputOnlyMaskedRegions state;
     autoProcessFilter := autoProcessFilter state;
     snapToGrid := snapToGrid state;
     showProgressOnCanvas := showProgressOnCanvas state;
     bboxOverlay := bboxOverlay state;
     preserveMask := preserveMask state |}.

Definition assign_invertScrollForToolWidth (v : bool) (state : CanvasSettingsState) : CanvasSettingsState :=
  {| showHUD := showHUD state;
     autoSave := autoSave state;
     clipToBbox := clipToBbox state;
     dynamicGrid := dynamicGrid state;
     invertScrollForToolWidth := v;
     brushWidth := brushWidth state;
     eraserWidth := eraserWidth state;
     color := color state;
     sendToCanvas := sendToCanvas state;
     outputOnlyMaskedRegions := outputOnlyMaskedRegions state;
     autoProcessFilter := autoProcessFilter state;
     snapToGrid := snapToGrid state;
     showProgressOnCanvas := showProgressOnCanvas state;
     bboxOverlay := bboxOverlay state;
     preserveMask := preserveMask state |}.

Definition assign_color (v : RgbaColor) (state : CanvasSettingsState) : CanvasSettingsState :=
  {| showHUD := showHUD state;
     autoSave := autoSave state;
     clipToBbox := clipToBbox state;
     dynamicGrid := dynamicGrid state;
     invertScrollForToolWidth := invertScrollForToolWidth state;
     brushWidth := brushWidth state;
     eraserWidth := eraserWidth state;
     color := v;
     sendToCanvas := sendToCanvas state;
     outputOnlyMaskedRegions := outputOnlyMaskedRegions state;
     autoProcessFilter := autoProcessFilter state;
     snapToGrid := snapToGrid state;
     showProgressOnCanvas := showProgressOnCanvas state;
     bboxOverlay := bboxOverlay state;
     preserveMask := preserveMask state |}.

Definition assign_sendToCanvas (v : bool) (state : CanvasSettingsState) : CanvasSettingsState :=
  {| showHUD := showHUD state;
     autoSave := autoSave state;
     clipToBbox := clipToBbox state;
     dynamicGrid := dynamicGrid state;
     invertScrollForToolWidth := invertScrollForToolWidth state;
     brushWidth := brushWidth state;
     eraserWidth := eraserWidth state;
     color := color state;
     sendToCanvas := v;
     outputOnlyMaskedRegions := outputOnlyMaskedRegions state;
     autoProcessFilter := autoProcessFilter state;
     snapToGrid := snapToGrid state;
     showProgressOnCanvas := showProgressOnCanvas state;
     bboxOverlay := bboxOverlay state;
     preserveMask := preserveMask state |}.

Definition assign_outputOnlyMaskedRegions (v : bool) (state : CanvasSettingsState) : CanvasSettingsState :=
  {| showHUD := showHUD state;
     autoSave := autoSave state;
     clipToBbox := clipToBbox state;
     dynamicGrid := dynamicGrid state;
     invertScrollForToolWidth := invertScrollForToolWidth state;
     brushWidth := brushWidth state;
     eraserWidth := eraserWidth state;
     color := color state;
     sendToCanvas := sendToCanvas state;
     outputOnlyMaskedRegions := v;
     autoProcessFilter := autoProcessFilter state;
     snapToGrid := snapToGrid state;
     showProgressOnCanvas := showProgressOnCanvas state;
     bboxOverlay := bboxOverlay state;
     preserveMask := preserveMask state |}.

Definition assign_autoProcessFilter (v : bool) (state : CanvasSettingsState) : CanvasSettingsState :=
  {| showHUD := showHUD state;
     autoSave := autoSave state;
     clipToBbox := clipToBbox state;
     dynamicGrid := dynamicGrid state;
     invertScrollForToolWidth := invertScrollForToolWidth state;
     brushWidth := brushWidth state;
     eraserWidth := eraserWidth state;
     color := color state;
     sendToCanvas := sendToCanvas state;
     outputOnlyMaskedRegions := outputOnlyMaskedRegions state;
     autoProcessFilter := v;
     snapToGrid := snapToGrid state;
     showProgressOnCanvas := showProgressOnCanvas state;
     bboxOverlay := bboxOverlay state;
     preserveMask := preserveMask state |}.

Definition assign_snapToGrid (v : bool) (state : CanvasSettingsState) : CanvasSettingsState :=
  {| showHUD := showHUD state;
     autoSave := autoSave state;
     clipToBbox := clipToBbox state;
     dynamicGrid := dynamicGrid state;
     invertScrollForToolWidth := invertScrollForToolWidth state;
     brushWidth := brushWidth state;
     eraserWidth := eraserWidth state;
     color := color state;
     sendToCanvas := sendToCanvas state;
     outputOnlyMaskedRegions := outputOnlyMaskedRegions state;
     autoProcessFilter := autoProcessFilter state;
     snapToGrid := v;
     showProgressOnCanvas := showProgressOnCanvas state;
     bboxOverlay := bboxOverlay state;
     preserveMask := preserveMask state |}.

Definition assign_showProgressOnCanvas (v : bool) (state : CanvasSettingsState) : CanvasSettingsState :=
  {| showHUD := showHUD state;
     autoSave := autoSave state;
     clipToBbox := clipToBbox state;
     dynamicGrid := dynamicGrid state;
     invertScrollForToolWidth := invertScrollForToolWidth state;
     brushWidth := brushWidth state;
     eraserWidth := eraserWidth state;
     color := color state;
     sendToCanvas := sendToCanvas state;
     outputOnlyMaskedRegions := outputOnlyMaskedRegions state;
     autoProcessFilter := autoProcessFilter state;
     snapToGrid := snapToGrid state;
     showProgressOnCanvas := v;
     bboxOverlay := bboxOverlay state;
     preserveMask := preserveMask state |}.

Definition assign_bboxOverlay (v : bool) (state : CanvasSettingsState) : CanvasSettingsState :=
  {| showHUD := showHUD state;
     autoSave := autoSave state;
     clipToBbox := clipToBbox state;
     dynamicGrid := dynamicGrid state;
     invertScrollForToolWidth := invertScrollForToolWidth state;
     brushWidth := brushWidth state;
     eraserWidth := eraserWidth state;
     color := color state;
     sendToCanvas := sendToCanvas state;
     outputOnlyMaskedRegions := outputOnlyMaskedRegions state;
     autoProcessFilter := autoProcessFilter state;
     snapToGrid := snapToGrid state;
     showProgressOnCanvas := showProgressOnCanvas state;
     bboxOverlay := v;
     preserveMask := preserveMask state |}.

Definition assign_preserveMask (v : bool) (state : CanvasSettingsState) : CanvasSettingsState :=
  {| showHUD := showHUD state;
     autoSave := autoSave state;
     clipToBbox := clipToBbox state;
     dynamicGrid := dynamicGrid state;
     invertScrollForToolWidth := invertScrollForToolWidth state;
     brushWidth := brushWidth state;
     eraserWidth := eraserWidth state;
     color := color state;
     sendToCanvas := sendToCanvas state;
     outputOnlyMaskedRegions := outputOnlyMaskedRegions state;
     autoProcessFilter := autoProcessFilter state;
     snapToGrid := snapToGrid state;
     showProgressOnCanvas := showProgressOnCanvas state;
     bboxOverlay := bboxOverlay state;
     preserveMask := v |}.

(** The reducers of [canvasSettingsSlice] that assign their payload. *)
Definition settingsClipToBboxChanged (state : CanvasSettingsState) (payload : bool) :=
  assign_clipToBbox payload state.
Definition settingsColorChanged (state : CanvasSettingsState) (payload : RgbaColor) :=
  assign_color payload state.
Definition settingsInvertScrollForToolWidthChanged (state : CanvasSettingsState) (payload : bool) :=
  assign_invertScrollForToolWidth payload state.
Definition settingsSendToCanvasChanged (state : CanvasSettingsState) (payload : bool) :=
  assign_sendToCanvas payload state.

(** The toggle reducers: [state.f = !state.f]. *)
Definition settingsDynamicGridToggled (state : CanvasSettingsState) : CanvasSettingsState :=
  assign_dynamicGrid (negb (dynamicGrid state)) state.
Definition settingsAutoSaveToggled (state : CanvasSettingsState) : CanvasSettingsState :=
  assign_autoSave (negb (autoSave state)) state.
Definition settingsShowHUDToggled (state : CanvasSettingsState) : CanvasSettingsState :=
  assign_showHUD (negb (showHUD state)) state.
Definition settingsOutputOnlyMaskedRegionsToggled (state : CanvasSettingsState) : CanvasSettingsState :=
  assign_outputOnlyMaskedRegions (negb (outputOnlyMaskedRegions state)) state.
Definition settingsAutoProcessFilterToggled (state : CanvasSettingsState) : CanvasSettingsState :=
  assign_autoProcessFilter (negb (autoProcessFilter state)) state.
Definition settingsSnapToGridToggled (state : CanvasSettingsState) : CanvasSettingsState :=
  assign_snapToGrid (negb (snapToGrid state)) state.
Definition settingsShowProgressOnCanvasToggled (state : CanvasSettingsState) : CanvasSettingsState :=
  assign_showProgressOnCanvas (negb (showProgressOnCanvas state)) state.
Definition settingsBboxOverlayToggled (state : CanvasSettingsState) : CanvasSettingsState :=
  assign_bboxOverlay (negb (bboxOverlay state)) state.
Definition settingsPreserveMaskToggled (state : CanvasSettingsState) : CanvasSettingsState :=
  assign_preserveMask (negb (preserveMask state)) state.

(** The toggle-style reducers of the slice, in the order of the source. *)
Definition toggle_reducers : list (CanvasSettingsState → CanvasSettingsState) :=
  [ settingsDynamicGridToggled;
    settingsAutoSaveToggled;
    settingsShowHUDToggled;
    settingsOutputOnlyMaskedRegionsToggled;
    settingsAutoProcessFilterToggled;
    settingsSnapToGridToggled;
    settingsShowProgressOnCanvasToggled;
    settingsBboxOverlayToggled;
    settingsPreserveMaskToggled ].

Definition assign_brushWidth (v : float) (state : CanvasSettingsState) : CanvasSettingsState :=
  {| showHUD := showHUD state;
     autoSave := autoSave state;
     clipToBbox := clipToBbox state;
     dynamicGrid := dynamicGrid state;
     invertScrollForToolWidth := invertScrollForToolWidth state;
     brushWidth := v;
     eraserWidth := eraserWidth state;
     color := color state;
     sendToCanvas := sendToCanvas state;
     outputOnlyMaskedRegions := outputOnlyMaskedRegions state;
     autoProcessFilter := autoProcessFilter state;
     snapToGrid := snapToGrid state;
     showProgressOnCanvas := showProgressOnCanvas state;
     bboxOverlay := bboxOverlay state;
     preserveMask := preserveMask state |}.

Definition assign_eraserWidth (v : float) (state : CanvasSettingsState) : CanvasSettingsState :=
  {| showHUD := showHUD state;
     autoSave := autoSave state;
     clipToBbox := clipToBbox state;
     dynamicGrid := dynamicGrid state;
     invertScrollForToolWidth := invertScrollForToolWidth state;
     brushWidth := brushWidth state;
     eraserWidth := v;
     color := color state;
     sendToCanvas := sendToCanvas state;
     outputOnlyMaskedRegions := outputOnlyMaskedRegions state;
     autoProcessFilter := autoProcessFilter state;
     snapToGrid := snapToGrid state;
     showProgressOnCanvas := showProgressOnCanvas state;
     bboxOverlay := bboxOverlay state;
     preserveMask := preserveMask state |}.

(** The two width reducers store [Math.round(action.payload)].  The
    rounding is the runtime's; the reducers are given it. *)
Section Widths.

Variable Math_round : float → float.

Definition settingsBrushWidthChanged (state : CanvasSettingsState) (payload : float) :=
  assign_brushWidth (Math_round payload) state.

Definition settingsEraserWidthChanged (state : CanvasSettingsState) (payload : float) :=
  assign_eraserWidth (Math_round payload) state.

End Widths.

(** [migrate]: returns its argument. *)
Definition migrate (state : value) : completion value :=
  Return state.

Definition canvasSettingsPersistConfig : Store.PersistConfig CanvasSettingsState := {|
  Store.name := "canvasSettings";
  Store.initialState := initialState;
  Store.migrate := migrate;
  Store.persistDenylist := [];
|}.

End CanvasSettings.

(** ** The UI slice *)
Module UI.

(** [initialUIState] (an object literal). *)
Definition initialUIState : object :=
  {[ "_version" := VNum 3;
     "activeTab" := VStr "canvas";
     "shouldShowImageDetails" := VBool false;
     "shouldShowProgressInViewer" := VBool true;
     "accordions" := VObj ∅;
     "expanders" := VObj ∅ ]}.

(** The version of the current schema, [initialUIState._version]. *)
Definition current_version : Z := 3.

(** The three conditional steps of [migrateUIState], on the fields of the
    object it was given.  The object is updated in place in the source;
    here each step returns the updated fields. *)
Definition migrateUIState_steps (state : object) : object :=
  let state :=
    if negb (has_property "_version" state)
    then set_property "_version" (VNum 1) state
    else state in
  let state :=
    if strict_equals_number (get_property "_version" state) 1
    then set_property "_version" (VNum 2)
           (set_property "activeTab" (VStr "generation") state)
    else state in
  let state :=
    if strict_equals_number (get_property "_version" state) 2
    then set_property "_version" (VNum 3)
           (set_property "activeTab" (VStr "canvas") state)
    else state in
  state.

(** [migrateUIState]: the first operation, ['_version' in state], throws a
    [TypeError] when [state] is not an object; on an object the steps run
    and the same object is returned. *)
Definition migrateUIState (state : value) : completion value :=
  match state with
  | VObj o => Return (VObj (migrateUIState_steps o))
  | _ => Throw TypeError
  end.

(** The fields of a snapshot once the last upgrade has written to it:
    [activeTab = 'canvas'] and [_version = 3] on top of what was there. *)
Definition upgraded (state : object) : object :=
  set_property "_version" (VNum 3)
    (set_property "activeTab" (VStr "canvas") state).

(** A snapshot is legacy when one of the upgrades applies to it: it has
    no [_version], or its [_version] is [=== 1] or [=== 2]. *)
Definition legacy (state : object) : bool :=
  negb (has_property "_version" state)
  || strict_equals_number (get_property "_version" state) 1
  || strict_equals_number (get_property "_version" state) 2.

(** *** The current schema

    [UIState] is declared in [./uiTypes]; its fields are those of
    [initialUIState], typed as the reducers of [uiSlice] write them:
    [activeTab] a [TabName], the two [shouldShow...] flags booleans, and
    [accordions] and [expanders] records of booleans indexed by id.  The
    union [TabName] is a parameter. *)
Section Schema.

Variable TabName : string → bool.

Definition is_boolean (v : value) : bool :=
  match v with VBool _ => true | _ => false end.

Definition is_tab_name (v : value) : bool :=
  match v with VStr s => TabName s | _ => false end.

Definition is_boolean_record (v : value) : bool :=
  match v with
  | VObj o => bool_decide (map_Forall (λ _ x, is_boolean x = true) o)
  | _ => false
  end.

(** Property [k] is present and its value passes [valid]. *)
Definition field_ok (valid : value → bool) (k : string) (state : object) : bool :=
  match state !! k with
  | Some v => valid v
  | None => false
  end.

(** The required fields other than [_version] and [activeTab]. *)
Definition flags_and_panels_ok (state : object) : bool :=
  field_ok is_boolean "shouldShowImageDetails" state
  && field_ok is_boolean "shouldShowProgressInViewer" state
  && field_ok is_boolean_record "accordions" state
  && field_ok is_boolean_record "expanders" state.

(** The snapshot carries the current version and every field of the
    current schema with a valid value. *)
Definition conforms_UIState (state : object) : Prop :=
  state !! "_version" = Some (VNum (number_of_Z current_version))
  ∧ field_ok is_tab_name "activeTab" state = true
  ∧ flags_and_panels_ok state = true.

End Schema.

(** The tabs that have a left panel; each is a [TabName]. *)
Definition TABS_WITH_LEFT_PANEL : list string :=
  ["canvas"; "upscaling"; "workflows"].

Definition uiPersistConfig : Store.PersistConfig object := {|
  Store.name := "ui";
  Store.initialState := initialUIState;
  Store.migrate := migrateUIState;
  Store.persistDenylist := ["shouldShowImageDetails"];
|}.

(** *** The reducers of [uiSlice]

    The state of the slice is the object the store holds.  A payload is
    typed: a [TabName] is a string, a flag a boolean. *)
Definition setActiveTab (state : object) (payload : string) : object :=
  set_property "activeTab" (VStr payload) state.

Definition setShouldShowImageDetails (state : object) (payload : bool) : object :=
  set_property "shouldShowImageDetails" (VBool payload) state.

Definition setShouldShowProgressInViewer (state : object) (payload : bool) : object :=
  set_property "shouldShowProgressInViewer" (VBool payload) state.

(** [entries[id] = isOpen] on an object of the state: the boolean is
    written under [id].  One key is special.  The reducers of a slice run
    on a draft of the state, and a write to a draft goes to the setter of
    the property when the prototype chain has one: [__proto__] has one, on
    [Object.prototype], and that setter ignores a boolean.  So nothing is
    ever written under [__proto__], whether [entries] has an own property
    of that name or not. *)
Definition set_entry (id : string) (isOpen : bool) (entries : object) : object :=
  if bool_decide (id = "__proto__")
  then entries
  else set_property id (VBool isOpen) entries.

(** [state.field[id] = isOpen]: the record under [field] gets the entry;
    when [state.field] is not an object (missing, [null], a primitive)
    the assignment throws a [TypeError]. *)
Definition assign_entry (field id : string) (isOpen : bool) (state : object)
  : completion object :=
  match get_property field state with
  | VObj entries =>
      Return (set_property field (VObj (set_entry id isOpen entries)) state)
  | _ => Throw TypeError
  end.

Definition accordionStateChanged (state : object) (id : string) (isOpen : bool)
  : completion object :=
  assign_entry "accordions" id isOpen state.

Definition expanderStateChanged (state : object) (id : string) (isOpen : bool)
  : completion object :=
  assign_entry "expanders" id isOpen state.

(** The extra reducer, on [workflowLoadRequested]. *)
Definition on_workflowLoadRequested (state : object) : object :=
  set_property "activeTab" (VStr "workflows") state.

(** The actions that reach the slice: one per action creator of
    [uiSlice.actions], [workflowLoadRequested], and every other action of
    the store. *)
Inductive action : Type :=
  | SetActiveTab (payload : string)
  | SetShouldShowImageDetails (payload : bool)
  | SetShouldShowProgressInViewer (payload : bool)
  | AccordionStateChanged (id : string) (isOpen : bool)
  | ExpanderStateChanged (id : string) (isOpen : bool)
  | WorkflowLoadRequested
  | OtherAction.

(** [uiSlice.reducer]: the case reducer of the action runs; on an action
    the slice has no case for, the state is returned as it is. *)
Definition reducer (state : object) (a : action) : completion object :=
  match a with
  | SetActiveTab payload => Return (setActiveTab state payload)
  | SetShouldShowImageDetails payload => Return (setShouldShowImageDetails state payload)
  | SetShouldShowProgressInViewer payload => Return (setShouldShowProgressInViewer state payload)
  | AccordionStateChanged id isOpen => accordionStateChanged state id isOpen
  | ExpanderStateChanged id isOpen => expanderStateChanged state id isOpen
  | WorkflowLoadRequested => Return (on_workflowLoadRequested state)
  | OtherAction => Return state
  end.

(** Actions dispatched one after the other. *)
Fixpoint dispatch_all (state : object) (actions : list action) : completion object :=
  match actions with
  | [] => Return state
  | a :: rest => and_then (reducer state a) (λ state', dispatch_all state' rest)
  end.

(** The payload of the action has the type its creator declares: the
    payload of [setActiveTab] is a [TabName]. *)
Definition well_typed (TabName : string → bool) (a : action) : bool :=
  match a with
  | SetActiveTab payload => TabName payload
  | _ => true
  end.

(** A state the reducers can all run on: the tag is the current one and
    the two records are objects. *)
Definition ready (state : object) : Prop :=
  state !! "_version" = Some (VNum 3)
  ∧ (∃ entries, state !! "accordions" = Some (VObj entries))
  ∧ (∃ entries, state !! "expanders" = Some (VObj entries)).

Definition TABS_WITH_RIGHT_PANEL : list string :=
  ["canvas"; "upscaling"; "workflows"].

(** The fields of a snapshot without the keys of a denylist. *)
Definition omit (keys : list string) (state : object) : object :=
  foldr delete state keys.

End UI.

(** ** The selectors

    [RootState] is the state of the whole store, of which this file reads
    the two slices [canvasSettings] and [ui].  A selector made by
    [createSelector] from an input selector and a projection computes the
    projection of what the input selector returns. *)
Module Selectors.

Import CanvasSettings UI.

Record RootState : Type := {
  canvasSettings : CanvasSettingsState;
  ui : object;
}.

Definition createSelector {S A B} (input : S → A) (result : A → B) : S → B :=
  λ state, result (input state).

Definition selectCanvasSettingsSlice (s : RootState) : CanvasSettingsState :=
  canvasSettings s.

Definition createCanvasSettingsSelector {T} (selector : CanvasSettingsState → T)
  : RootState → T :=
  createSelector selectCanvasSettingsSlice selector.

Definition selectAutoSave := createCanvasSettingsSelector (λ settings, autoSave settings).
Definition selectPreserveMask := createCanvasSettingsSelector (λ settings, preserveMask settings).
Definition selectOutputOnlyMaskedRegions :=
  createCanvasSettingsSelector (λ settings, outputOnlyMaskedRegions settings).
Definition selectDynamicGrid := createCanvasSettingsSelector (λ settings, dynamicGrid settings).
Definition selectBboxOverlay := createCanvasSettingsSelector (λ settings, bboxOverlay settings).
Definition selectShowHUD := createCanvasSettingsSelector (λ settings, showHUD settings).
Definition selectAutoProcessFilter :=
  createCanvasSettingsSelector (λ settings, autoProcessFilter settings).
Definition selectSnapToGrid := createCanvasSettingsSelector (λ settings, snapToGrid settings).
Definition selectSendToCanvas :=
  createCanvasSettingsSelector (λ canvasSettings, sendToCanvas canvasSettings).
Definition selectShowProgressOnCanvas :=
  createCanvasSettingsSelector (λ canvasSettings, showProgressOnCanvas canvasSettings).

Definition selectUiSlice (state : RootState) : object := ui state.

Definition selectWithLeftPanel : RootState → bool :=
  createSelector selectUiSlice
    (λ ui, includes TABS_WITH_LEFT_PANEL (get_property "activeTab" ui)).

Definition selectWithRightPanel : RootState → bool :=
  createSelector selectUiSlice
    (λ ui, includes TABS_WITH_RIGHT_PANEL (get_property "activeTab" ui)).

(** Each toggle reducer with the selector of the flag it assigns. *)
Definition toggle_selectors
  : list ((CanvasSettingsState → CanvasSettingsState) * (RootState → bool)) :=
  [ (settingsDynamicGridToggled, selectDynamicGrid);
    (settingsAutoSaveToggled, selectAutoSave);
    (settingsShowHUDToggled, selectShowHUD);
    (settingsOutputOnlyMaskedRegionsToggled, selectOutputOnlyMaskedRegions);
    (settingsAutoProcessFilterToggled, selectAutoProcessFilter);
    (settingsSnapToGridToggled, selectSnapToGrid);
    (settingsShowProgressOnCanvasToggled, selectShowProgressOnCanvas);
    (settingsBboxOverlayToggled, selectBboxOverlay);
    (settingsPreserveMaskToggled, selectPreserveMask) ].

(** The store after a slice's reducer ran: the slice holds the reducer's
    result and the other slice is the same. *)
Definition with_canvasSettings (settings : CanvasSettingsState) (s : RootState) : RootState :=
  {| canvasSettings := settings; ui := ui s |}.

Definition with_ui (state : object) (s : RootState) : RootState :=
  {| canvasSettings := canvasSettings s; ui := state |}.

End Selectors.

(** ** Strict equality with a number literal *)
Section StrictEquality.

(** Two doubles that compare equal, one of them finite and not zero, are
    the same double. *)
Lemma SFeqb_finite x (s : bool) (m : positive) (e : Z) :
  SFeqb x (S754_finite s m e) = true → x = S754_finite s m e.
Proof.
  unfold SFeqb, SFcompare. intros H.
  destruct x as [z|z| |s' m' e'];
    try (destruct s; cbn in H; discriminate);
    try (destruct z; cbn in H; discriminate).
  destruct s', s; cbn in H; try discriminate;
    (destruct (Z.compare e' e) eqn:Ee; try discriminate;
     apply Z.compare_eq in Ee as ->;
     rewrite ?Pos.compare_cont_spec in H; cbn in H;
     destruct (Pos.compare m' m) eqn:Em; try discriminate;
     now apply Pos.compare_eq in Em as ->).
Qed.

Lemma strict_equals_number_finite (v : value) (n : float) s m e :
  Prim2SF n = S754_finite s m e →
  strict_equals_number v n = true → v = VNum n.
Proof.
  intros En. destruct v as [| | |f| |]; try discriminate. cbn.
  rewrite FloatAxioms.eqb_spec, En. intros H%SFeqb_finite. f_equal.
  rewrite <- (SF2Prim_Prim2SF f), <- (SF2Prim_Prim2SF n). congruence.
Qed.

(** [v === 1] holds of the number 1 and of nothing else; likewise for 2. *)
Lemma strict_equals_1 (v : value) : strict_equals_number v 1 = true ↔ v = VNum 1.
Proof.
  split; [| now intros ->].
  now apply (strict_equals_number_finite v 1 false 4503599627370496 (-52)).
Qed.

Lemma strict_equals_2 (v : value) : strict_equals_number v 2 = true ↔ v = VNum 2.
Proof.
  split; [| now intros ->].
  now apply (strict_equals_number_finite v 2 false 4503599627370496 (-51)).
Qed.

End StrictEquality.

(** ** Facts about the three steps of the UI migrator *)

(** Two chains of writes to [_version] and [activeTab] leave the same
    fields: compare them key by key. *)
Ltac fields_eq :=
  let k := fresh "k" in
  unfold UI.upgraded, set_property; apply map_eq; intros k;
  destruct (decide (k = "_version")) as [-> |];
    [| destruct (decide (k = "activeTab")) as [-> |]];
  repeat (rewrite lookup_insert_eq || rewrite lookup_insert_ne by congruence);
  reflexivity.

Section Steps.

Import UI.

Implicit Types (o : object) (v : value) (k : string).

Lemma has_property_None k o : o !! k = None → has_property k o = false.
Proof.
  intros E. unfold has_property. apply bool_decide_eq_false.
  rewrite E. intros [x Hx]. discriminate.
Qed.

Lemma has_property_Some k o v : o !! k = Some v → has_property k o = true.
Proof.
  intros E. unfold has_property. apply bool_decide_eq_true. rewrite E. eauto.
Qed.

Lemma get_property_Some k o v : o !! k = Some v → get_property k o = v.
Proof. intros E. unfold get_property. now rewrite E. Qed.

Lemma get_set_property k v o : get_property k (set_property k v o) = v.
Proof. unfold get_property, set_property. now rewrite lookup_insert_eq. Qed.

(** The five writes of a full cascade leave the same fields as the last two. *)
Lemma cascade_collapse o (x : value) :
  set_property "_version" (VNum 3)
    (set_property "activeTab" (VStr "canvas")
       (set_property "_version" (VNum 2)
          (set_property "activeTab" (VStr "generation")
             (set_property "_version" x o)))) = upgraded o.
Proof.
  fields_eq.
Qed.

Lemma steps_absent o :
  o !! "_version" = None → migrateUIState_steps o = upgraded o.
Proof.
  intros E. unfold migrateUIState_steps.
  rewrite (has_property_None _ _ E). cbn [negb].
  rewrite get_set_property.
  change (strict_equals_number (VNum 1) 1) with true. cbv iota.
  rewrite get_set_property.
  change (strict_equals_number (VNum 2) 2) with true. cbv iota.
  apply cascade_collapse.
Qed.

Lemma steps_tag_1 o v :
  o !! "_version" = Some v → strict_equals_number v 1 = true →
  migrateUIState_steps o = upgraded o.
Proof.
  intros E H1. unfold migrateUIState_steps.
  rewrite (has_property_Some _ _ _ E). cbn [negb].
  rewrite (get_property_Some _ _ _ E), H1. cbv iota.
  rewrite get_set_property.
  change (strict_equals_number (VNum 2) 2) with true. cbv iota.
  fields_eq.
Qed.

Lemma steps_tag_2 o v :
  o !! "_version" = Some v →
  strict_equals_number v 1 = false → strict_equals_number v 2 = true →
  migrateUIState_steps o = upgraded o.
Proof.
  intros E H1 H2. unfold migrateUIState_steps.
  rewrite (has_property_Some _ _ _ E). cbn [negb].
  rewrite (get_property_Some _ _ _ E), H1. cbv iota.
  rewrite (get_property_Some _ _ _ E), H2. reflexivity.
Qed.

Lemma steps_other o v :
  o !! "_version" = Some v →
  strict_equals_number v 1 = false → strict_equals_number v 2 = false →
  migrateUIState_steps o = o.
Proof.
  intros E H1 H2. unfold migrateUIState_steps.
  rewrite (has_property_Some _ _ _ E). cbn [negb].
  rewrite (get_property_Some _ _ _ E), H1. cbv iota.
  rewrite (get_property_Some _ _ _ E), H2. reflexivity.
Qed.

(** The migrator has two behaviours: a legacy snapshot is upgraded, any
    other snapshot is left as it is. *)
Lemma steps_legacy o : legacy o = true → migrateUIState_steps o = upgraded o.
Proof.
  unfold legacy. destruct (o !! "_version") as [v|] eqn:E.
  - rewrite (has_property_Some _ _ _ E), (get_property_Some _ _ _ E).
    cbn [negb orb].
    destruct (strict_equals_number v 1) eqn:H1; [intros _; eauto using steps_tag_1 |].
    destruct (strict_equals_number v 2) eqn:H2; [intros _; eauto using steps_tag_2 |].
    discriminate.
  - intros _. now apply steps_absent.
Qed.

Lemma steps_not_legacy o : legacy o = false → migrateUIState_steps o = o.
Proof.
  unfold legacy. destruct (o !! "_version") as [v|] eqn:E.
  - rewrite (has_property_Some _ _ _ E), (get_property_Some _ _ _ E).
    cbn [negb orb].
    destruct (strict_equals_number v 1) eqn:H1; [discriminate |].
    destruct (strict_equals_number v 2) eqn:H2; [discriminate |].
    intros _. eauto using steps_other.
  - rewrite (has_property_None _ _ E). discriminate.
Qed.

Lemma upgraded_version o : upgraded o !! "_version" = Some (VNum 3).
Proof. unfold upgraded, set_property. apply lookup_insert_eq. Qed.

Lemma upgraded_activeTab o : upgraded o !! "activeTab" = Some (VStr "canvas").
Proof.
  unfold upgraded, set_property.
  rewrite lookup_insert_ne by discriminate. apply lookup_insert_eq.
Qed.

Lemma upgraded_frame o k :
  k ≠ "_version" → k ≠ "activeTab" → upgraded o !! k = o !! k.
Proof.
  intros Hv Ht. unfold upgraded, set_property.
  now rewrite !lookup_insert_ne by congruence.
Qed.

Lemma upgraded_not_legacy o : legacy (upgraded o) = false.
Proof.
  unfold legacy.
  rewrite (has_property_Some _ _ _ (upgraded_version o)).
  rewrite (get_property_Some _ _ _ (upgraded_version o)). reflexivity.
Qed.

Lemma steps_idempotent o :
  migrateUIState_steps (migrateUIState_steps o) = migrateUIState_steps o.
Proof.
  destruct (legacy o) eqn:L.
  - rewrite (steps_legacy _ L). apply steps_not_legacy, upgraded_not_legacy.
  - rewrite (steps_not_legacy _ L). now apply steps_not_legacy.
Qed.

End Steps.

(** ** The migrators *)
Section Migrators.

Import UI.

Implicit Types (o : object) (v : value) (k : string).

(** On an object the UI migrator returns, and it returns the object with
    the steps applied. *)
Lemma migrateUIState_object o :
  migrateUIState (VObj o) = Return (VObj (migrateUIState_steps o)).
Proof. reflexivity. Qed.

(** It returns only objects, and only when it was given one. *)
Lemma migrateUIState_returns state S :
  migrateUIState state = Return S →
  ∃ o, state = VObj o ∧ S = VObj (migrateUIState_steps o).
Proof.
  destruct state; try discriminate.
  intros [= <-]. eauto.
Qed.

(** C1. Both migrators are idempotent: when [S] is what a migrator
    returned on some input, migrating [S] again returns [S]. This holds
    for [migrateUIState] and for the canvas-settings [migrate]. *)
Theorem migrate_idempotent (state S : value) :
  (migrateUIState state = Return S → migrateUIState S = Return S)
  ∧ (CanvasSettings.migrate state = Return S → CanvasSettings.migrate S = Return S).
Proof.
  split.
  - intros H. apply migrateUIState_returns in H as (o & -> & ->).
    rewrite migrateUIState_object. now rewrite steps_idempotent.
  - intros _. reflexivity.
Qed.

Lemma migrate_idempotent_witness :
  migrateUIState (VObj (upgraded ∅)) = Return (VObj (upgraded ∅))
  ∧ CanvasSettings.migrate (VObj (upgraded ∅)) = Return (VObj (upgraded ∅)).
Proof.
  split.
  - apply (proj1 (migrate_idempotent (VObj ∅) (VObj (upgraded ∅)))).
    vm_compute. reflexivity.
  - apply (proj2 (migrate_idempotent (VObj (upgraded ∅)) (VObj (upgraded ∅)))).
    reflexivity.
Defined.

(** The tag of a snapshot at version 1 or 2 is [=== 1] or [=== 2]. *)
Lemma legacy_tag o (n : Z) :
  1 ≤ n ≤ current_version - 1 →
  o !! "_version" = Some (VNum (number_of_Z n)) → legacy o = true.
Proof.
  unfold current_version. intros Hn E. unfold legacy.
  rewrite (has_property_Some _ _ _ E), (get_property_Some _ _ _ E).
  assert (n = 1 ∨ n = 2) as [-> | ->] by lia; reflexivity.
Qed.

(** C2. Monotonic staircase: when the [_version] tag of the input is an
    integer [n] with [1 <= n <= current - 1] (current is 3), the migrator
    returns a snapshot whose [_version] is the current version, whichever
    of the two tags it started from. *)
Theorem migrateUIState_staircase o (n : Z) :
  1 ≤ n ≤ current_version - 1 →
  o !! "_version" = Some (VNum (number_of_Z n)) →
  ∃ o', migrateUIState (VObj o) = Return (VObj o')
        ∧ o' !! "_version" = Some (VNum (number_of_Z current_version)).
Proof.
  intros Hn E. exists (migrateUIState_steps o). split; [reflexivity |].
  rewrite (steps_legacy _ (legacy_tag _ _ Hn E)). apply upgraded_version.
Qed.

Lemma migrateUIState_staircase_witness :
  ∃ o', migrateUIState (VObj {[ "_version" := VNum 1; "activeTab" := VStr "workflows" ]})
          = Return (VObj o')
        ∧ o' !! "_version" = Some (VNum 3).
Proof.
  apply (migrateUIState_staircase
           {[ "_version" := VNum 1; "activeTab" := VStr "workflows" ]} 1).
  - unfold current_version. lia.
  - reflexivity.
Defined.

(** C3. The empty mapping cascades through both upgrades: the migrator
    returns [{ _version: 3, activeTab: 'canvas' }], so [activeTab] holds
    the value written by the step from 2 to 3 and not ['generation'],
    written by the step from 1 to 2. *)
Theorem migrateUIState_empty :
  ∃ o', migrateUIState (VObj ∅) = Return (VObj o')
        ∧ o' = {[ "_version" := VNum 3; "activeTab" := VStr "canvas" ]}
        ∧ o' !! "_version" = Some (VNum 3)
        ∧ o' !! "activeTab" = Some (VStr "canvas")
        ∧ o' !! "activeTab" ≠ Some (VStr "generation").
Proof.
  exists (migrateUIState_steps ∅). split; [reflexivity |].
  rewrite (steps_absent ∅) by apply lookup_empty.
  split; [| split; [| split]].
  - vm_compute. reflexivity.
  - apply upgraded_version.
  - apply upgraded_activeTab.
  - rewrite upgraded_activeTab. discriminate.
Qed.

(** Upgrading does not depend on the tag that was there. *)
Lemma upgraded_set_version o v :
  upgraded (set_property "_version" v o) = upgraded o.
Proof.
  fields_eq.
Qed.

(** C4. Default baseline: on a mapping with no [_version] key the
    migrator gives the same result as on that mapping with [_version]
    set to 1. *)
Theorem migrateUIState_default_baseline o :
  o !! "_version" = None →
  migrateUIState (VObj o)
  = migrateUIState (VObj (set_property "_version" (VNum 1) o)).
Proof.
  intros E. rewrite !migrateUIState_object. do 2 f_equal.
  rewrite (steps_absent _ E).
  rewrite (steps_tag_1 _ (VNum 1)); [| apply lookup_insert_eq | reflexivity].
  now rewrite upgraded_set_version.
Qed.

Lemma migrateUIState_default_baseline_witness :
  migrateUIState (VObj {[ "shouldShowProgressInViewer" := VBool false ]})
  = migrateUIState
      (VObj (set_property "_version" (VNum 1)
               {[ "shouldShowProgressInViewer" := VBool false ]})).
Proof.
  apply (migrateUIState_default_baseline
           {[ "shouldShowProgressInViewer" := VBool false ]}).
  reflexivity.
Defined.

(** Every field but the two the upgrades write is left as it was. *)
Lemma steps_frame o k :
  k ≠ "_version" → k ≠ "activeTab" → migrateUIState_steps o !! k = o !! k.
Proof.
  intros Hv Ht. destruct (legacy o) eqn:L.
  - rewrite (steps_legacy _ L). now apply upgraded_frame.
  - now rewrite (steps_not_legacy _ L).
Qed.

(** C8. Frame: on every input mapping the migrator returns (it raises no
    error, whatever the fields hold), and every field other than
    [_version] and [activeTab], known to the schema or not, reads in the
    output as it did in the input: present with the same value, or
    absent as before. *)
Theorem migrateUIState_frame o :
  ∃ o', migrateUIState (VObj o) = Return (VObj o')
        ∧ ∀ k, k ≠ "_version" → k ≠ "activeTab" → o' !! k = o !! k.
Proof.
  exists (migrateUIState_steps o). split; [reflexivity |].
  intros k. apply steps_frame.
Qed.

(** C10. Pass-through: when the [_version] key is present and its value
    is neither [=== 1] nor [=== 2] (a newer tag, a fraction, a string,
    [null], ...), the migrator returns the mapping it was given, with
    every field as it was, and raises nothing. *)
Theorem migrateUIState_pass_through o v :
  o !! "_version" = Some v →
  strict_equals_number v 1 = false →
  strict_equals_number v 2 = false →
  migrateUIState (VObj o) = Return (VObj o).
Proof.
  intros E H1 H2. rewrite migrateUIState_object.
  now rewrite (steps_other _ _ E H1 H2).
Qed.

Lemma migrateUIState_pass_through_witness :
  migrateUIState (VObj {[ "_version" := VNum 4; "activeTab" := VStr "generation" ]})
  = Return (VObj {[ "_version" := VNum 4; "activeTab" := VStr "generation" ]}).
Proof.
  apply (migrateUIState_pass_through
           {[ "_version" := VNum 4; "activeTab" := VStr "generation" ]} (VNum 4));
    reflexivity.
Defined.

(** The same, for a tag that is not the number 1 and not the number 2. *)
Lemma migrateUIState_other_tag o v :
  o !! "_version" = Some v → v ≠ VNum 1 → v ≠ VNum 2 →
  migrateUIState (VObj o) = Return (VObj o).
Proof.
  intros E N1 N2. rewrite migrateUIState_object.
  rewrite (steps_other o v E); [reflexivity | |].
  - destruct (strict_equals_number v 1) eqn:H; [| reflexivity].
    now apply strict_equals_1 in H.
  - destruct (strict_equals_number v 2) eqn:H; [| reflexivity].
    now apply strict_equals_2 in H.
Qed.

(** Tags that pass through: [NaN], a fraction, the string ["1"], [null]. *)
Example pass_through_nan :
  migrateUIState (VObj {[ "_version" := VNum nan ]})
  = Return (VObj {[ "_version" := VNum nan ]}).
Proof. reflexivity. Qed.

Example pass_through_fraction :
  migrateUIState (VObj {[ "_version" := VNum 1.5 ]})
  = Return (VObj {[ "_version" := VNum 1.5 ]}).
Proof. reflexivity. Qed.

Example pass_through_string :
  migrateUIState (VObj {[ "_version" := VStr "1" ]})
  = Return (VObj {[ "_version" := VStr "1" ]}).
Proof. reflexivity. Qed.

Example pass_through_null :
  migrateUIState (VObj {[ "_version" := VNull ]})
  = Return (VObj {[ "_version" := VNull ]}).
Proof. reflexivity. Qed.

(** A snapshot at version 2 with the tab of version 2. *)
Example migrateUIState_from_2 :
  migrateUIState (VObj {[ "_version" := VNum 2; "activeTab" := VStr "generation" ]})
  = Return (VObj {[ "_version" := VNum 3; "activeTab" := VStr "canvas" ]}).
Proof. vm_compute. reflexivity. Qed.

(** What is not an object makes ['_version' in state] throw. *)
Example migrateUIState_null : migrateUIState VNull = Throw TypeError.
Proof. reflexivity. Qed.

Example migrateUIState_string : migrateUIState (VStr "{}") = Throw TypeError.
Proof. reflexivity. Qed.

End Migrators.

(** ** The schema after migration *)
Section SchemaInvariant.

Import UI.

Implicit Types (o : object) (v : value) (k : string).

Lemma field_ok_upgraded (valid : value → bool) k o :
  k ≠ "_version" → k ≠ "activeTab" →
  field_ok valid k (upgraded o) = field_ok valid k o.
Proof.
  intros Hv Ht. unfold field_ok. now rewrite upgraded_frame.
Qed.

Lemma flags_and_panels_upgraded o :
  flags_and_panels_ok (upgraded o) = flags_and_panels_ok o.
Proof.
  unfold flags_and_panels_ok.
  now rewrite !field_ok_upgraded by discriminate.
Qed.

(** C5 as stated fails.  The migrator does not hold the invariant on
    every input: from the empty mapping it returns
    [{ _version: 3, activeTab: 'canvas' }], where [shouldShowImageDetails],
    [shouldShowProgressInViewer], [accordions] and [expanders] are
    missing, whatever the tab names are. *)
Lemma migrateUIState_conforms_not_always :
  ¬ ∃ TabName : string → bool,
      ∀ o, ∃ o', migrateUIState (VObj o) = Return (VObj o')
                 ∧ conforms_UIState TabName o'.
Proof.
  intros [TabName H].
  destruct (H ∅) as (o' & E & _ & _ & F).
  injection E as <-. vm_compute in F. discriminate.
Qed.

Variable TabName : string → bool.
Hypothesis canvas_is_tab : TabName "canvas" = true.

(** C5, amended. What the migrator does for the schema, on every input
    snapshot.  A legacy snapshot (no [_version], or [_version] 1 or 2)
    comes out with [_version] 3 and [activeTab] present with a valid
    value; a snapshot with any other tag comes out as it went in.  Every
    field other than [_version] and [activeTab] reads in the output as in
    the input, so each of [shouldShowImageDetails],
    [shouldShowProgressInViewer], [accordions] and [expanders] is present
    with a valid value in the output exactly when it is in the input: the
    migrator adds and repairs none of them.  Hence the output has
    [_version] 3 and every required field present with a valid value
    exactly when the input is a legacy snapshot that holds those four
    fields with valid values, or already conforms to the schema. *)
Theorem migrateUIState_conforms o :
  ∃ o', migrateUIState (VObj o) = Return (VObj o')
        ∧ (legacy o = true →
           o' !! "_version" = Some (VNum (number_of_Z current_version))
           ∧ field_ok (is_tab_name TabName) "activeTab" o' = true)
        ∧ (legacy o = false → o' = o)
        ∧ (∀ k, k ≠ "_version" → k ≠ "activeTab" → o' !! k = o !! k)
        ∧ (∀ (valid : value → bool) k,
              k ≠ "_version" → k ≠ "activeTab" →
              field_ok valid k o' = field_ok valid k o)
        ∧ (conforms_UIState TabName o'
           ↔ (legacy o = true ∧ flags_and_panels_ok o = true)
             ∨ conforms_UIState TabName o).
Proof.
  exists (migrateUIState_steps o). split; [reflexivity |].
  assert (T : field_ok (is_tab_name TabName) "activeTab" (upgraded o) = true).
  { unfold field_ok. rewrite upgraded_activeTab. exact canvas_is_tab. }
  split; [| split; [| split; [| split]]].
  - intros L. rewrite (steps_legacy _ L). split; [apply upgraded_version | exact T].
  - apply steps_not_legacy.
  - intros k. apply steps_frame.
  - intros valid k Hv Ht. unfold field_ok. now rewrite steps_frame.
  - destruct (legacy o) eqn:L.
    + rewrite (steps_legacy _ L). split.
      * intros (_ & _ & F). left. split; [reflexivity |].
        now rewrite <- flags_and_panels_upgraded.
      * intros [[_ F] | (V & _ & _)].
        -- repeat split; [apply upgraded_version | exact T |].
           now rewrite flags_and_panels_upgraded.
        -- unfold legacy in L.
           rewrite (has_property_Some _ _ _ V), (get_property_Some _ _ _ V) in L.
           discriminate.
    + rewrite (steps_not_legacy _ L). split; [now right |].
      intros [[L' _] | C]; [discriminate | assumption].
Qed.

End SchemaInvariant.

Lemma migrateUIState_conforms_witness :
  ∃ o', UI.migrateUIState
          (VObj {[ "_version" := VNum 1;
                   "shouldShowProgressInViewer" := VBool false;
                   "accordions" := VObj {[ "advanced" := VBool true ]};
                   "expanders" := VObj ∅ ]})
        = Return (VObj o')
        ∧ o' !! "_version" = Some (VNum 3)
        ∧ UI.field_ok (UI.is_tab_name (λ s, bool_decide (s ∈ UI.TABS_WITH_LEFT_PANEL)))
            "activeTab" o' = true
        ∧ o' !! "shouldShowImageDetails" = None
        ∧ o' !! "accordions" = Some (VObj {[ "advanced" := VBool true ]}).
Proof.
  assert (Hcanvas : bool_decide ("canvas" ∈ UI.TABS_WITH_LEFT_PANEL) = true)
    by reflexivity.
  destruct (migrateUIState_conforms
              (λ s, bool_decide (s ∈ UI.TABS_WITH_LEFT_PANEL)) Hcanvas
              {[ "_version" := VNum 1;
                 "shouldShowProgressInViewer" := VBool false;
                 "accordions" := VObj {[ "advanced" := VBool true ]};
                 "expanders" := VObj ∅ ]})
    as (o' & E & Hlegacy & _ & Hframe & _).
  exists o'. split; [exact E |].
  destruct Hlegacy as [V T]; [vm_compute; reflexivity |].
  split; [exact V |]. split; [exact T |].
  split; rewrite Hframe by discriminate; vm_compute; reflexivity.
Defined.

(** ** The canvas-settings slice: migration, persistence, toggles *)
Section CanvasSettingsFacts.

Import CanvasSettings.

(** C7. The canvas-settings migration is the identity: on every input it
    returns that input, and this is the function the persistence
    configuration of the slice carries. *)
Theorem migrate_identity (x : value) :
  migrate x = Return x
  ∧ Store.migrate canvasSettingsPersistConfig x = Return x.
Proof. split; reflexivity. Qed.

(** C6 as stated fails.  The canvas-settings denylist does not hold
    [color]: the statement that it does, next to the UI slice's denylist,
    is false. *)
Lemma canvas_denylist_lacks_color :
  ¬ ("color" ∈ Store.persistDenylist canvasSettingsPersistConfig
     ∧ Store.persistDenylist UI.uiPersistConfig = ["shouldShowImageDetails"]).
Proof.
  intros [H _]. cbn in H. now apply not_elem_of_nil in H.
Qed.

(** C6, amended. The canvas-settings denylist is empty: no field of the
    slice, [color] included, is kept out of persistence.  The UI slice's
    denylist holds [shouldShowImageDetails] and nothing else. *)
Theorem persist_denylists :
  Store.persistDenylist canvasSettingsPersistConfig = []
  ∧ (∀ k, k ∉ Store.persistDenylist canvasSettingsPersistConfig)
  ∧ Store.persistDenylist UI.uiPersistConfig = ["shouldShowImageDetails"]
  ∧ (∀ k, k ∈ Store.persistDenylist UI.uiPersistConfig
          ↔ k = "shouldShowImageDetails").
Proof.
  split; [reflexivity |]. split; [intros k; apply not_elem_of_nil |].
  split; [reflexivity |]. intros k. cbn. apply list_elem_of_singleton.
Qed.

(** Assigning the negation of the negation of a field's value puts the
    state back. *)
Ltac toggle_twice :=
  let state := fresh "state" in
  intros state; destruct state; cbv -[negb]; now rewrite negb_involutive.

(** C9. Every toggle reducer of the canvas-settings slice is its own
    inverse: dispatched twice in a row it leaves the state it started
    from, on every state of the slice's type (every flag a boolean). *)
Theorem toggles_self_inverse :
  Forall (λ reducer, ∀ state : CanvasSettingsState, reducer (reducer state) = state)
    toggle_reducers.
Proof.
  unfold toggle_reducers.
  repeat (apply List.Forall_cons; [toggle_twice |]).
  apply List.Forall_nil.
Qed.

End CanvasSettingsFacts.

(** ** More on the UI migrator *)
Section MigratorShape.

Import UI.

Implicit Types (o : object) (v : value) (k : string).

(** X1. The migrator has two behaviours and no third: a legacy snapshot
    (no [_version], or [_version] 1 or 2) comes out with [activeTab]
    ['canvas'] and [_version] 3 written over its fields, and every other
    snapshot comes out as it went in. *)
Theorem migrateUIState_closed_form o :
  migrateUIState (VObj o)
  = Return (VObj (if legacy o then upgraded o else o)).
Proof.
  rewrite migrateUIState_object. do 2 f_equal.
  destruct (legacy o) eqn:L.
  - now apply steps_legacy.
  - now apply steps_not_legacy.
Qed.

(** X3. What the migrator returns always carries a [_version] key, and
    its tag is never one an upgrade applies to: it is not legacy. *)
Theorem migrateUIState_output_tagged o :
  is_Some (migrateUIState_steps o !! "_version")
  ∧ legacy (migrateUIState_steps o) = false.
Proof.
  destruct (legacy o) eqn:L.
  - rewrite (steps_legacy _ L). split.
    + rewrite upgraded_version. eauto.
    + apply upgraded_not_legacy.
  - rewrite (steps_not_legacy _ L). split; [| assumption].
    unfold legacy in L. destruct (o !! "_version") eqn:E; [eauto |].
    rewrite (has_property_None _ _ E) in L. discriminate.
Qed.

(** X4. The value ['generation'], written by the step from 1 to 2, is
    never what the migrator leaves in [activeTab]: when the output holds
    it, the input held it already and was not a legacy snapshot. *)
Theorem migrateUIState_generation_not_introduced o :
  migrateUIState_steps o !! "activeTab" = Some (VStr "generation") →
  o !! "activeTab" = Some (VStr "generation") ∧ legacy o = false.
Proof.
  destruct (legacy o) eqn:L.
  - rewrite (steps_legacy _ L), upgraded_activeTab. discriminate.
  - rewrite (steps_not_legacy _ L). auto.
Qed.

Lemma migrateUIState_generation_not_introduced_witness :
  ({[ "_version" := VNum 3; "activeTab" := VStr "generation" ]} : object)
    !! "activeTab" = Some (VStr "generation")
  ∧ legacy {[ "_version" := VNum 3; "activeTab" := VStr "generation" ]} = false.
Proof.
  apply (migrateUIState_generation_not_introduced
           {[ "_version" := VNum 3; "activeTab" := VStr "generation" ]}).
  vm_compute. reflexivity.
Defined.

Lemma lookup_omit (keys : list string) o k :
  k ∉ keys → omit keys o !! k = o !! k.
Proof.
  induction keys as [| j keys IH]; [reflexivity |].
  intros [Hj Hk]%not_elem_of_cons. cbn.
  rewrite lookup_delete_ne by congruence. now apply IH.
Qed.

Lemma lookup_omit_in (keys : list string) o k :
  k ∈ keys → omit keys o !! k = None.
Proof.
  induction keys as [| j keys IH]; [intros H; now apply not_elem_of_nil in H |].
  intros H. cbn. destruct (decide (j = k)) as [-> | Hj].
  - apply lookup_delete_eq.
  - rewrite lookup_delete_ne by assumption.
    apply IH. apply elem_of_cons in H as [-> | H]; [congruence | assumption].
Qed.

Lemma legacy_omit (keys : list string) o :
  "_version" ∉ keys → legacy (omit keys o) = legacy o.
Proof.
  intros H. unfold legacy, has_property, get_property.
  now rewrite (lookup_omit _ _ _ H).
Qed.

(** X5. Migration and the persistence denylist do not interfere: leaving
    the denylisted fields of the UI slice out of a snapshot before it is
    migrated gives the same fields as leaving them out after. *)
Theorem migrateUIState_omit_denylist o :
  migrateUIState_steps (omit (Store.persistDenylist uiPersistConfig) o)
  = omit (Store.persistDenylist uiPersistConfig) (migrateUIState_steps o).
Proof.
  set (keys := Store.persistDenylist uiPersistConfig).
  assert (Hv : "_version" ∉ keys).
  { intros H. apply list_elem_of_singleton in H. discriminate. }
  assert (Ht : "activeTab" ∉ keys).
  { intros H. apply list_elem_of_singleton in H. discriminate. }
  assert (L := legacy_omit keys o Hv).
  destruct (legacy o) eqn:Lo.
  - rewrite (steps_legacy _ L), (steps_legacy _ Lo).
    apply map_eq. intros k.
    destruct (decide (k ∈ keys)) as [Hk | Hk].
    + rewrite (lookup_omit_in _ _ _ Hk).
      rewrite upgraded_frame by (intros ->; contradiction).
      now apply lookup_omit_in.
    + rewrite (lookup_omit _ _ _ Hk).
      destruct (decide (k = "_version")) as [-> | Nv];
        [now rewrite !upgraded_version |].
      destruct (decide (k = "activeTab")) as [-> | Nt];
        [now rewrite !upgraded_activeTab |].
      rewrite !upgraded_frame by assumption. now apply lookup_omit.
  - now rewrite (steps_not_legacy _ L), (steps_not_legacy _ Lo).
Qed.

End MigratorShape.

(** ** The reducers of the UI slice *)
Section UIReducers.

Import UI.

Implicit Types (state : object) (v : value) (k id : string).

Lemma assign_entry_object field id isOpen state entries :
  state !! field = Some (VObj entries) →
  assign_entry field id isOpen state
  = Return (<[field := VObj (set_entry id isOpen entries)]> state).
Proof.
  intros E. unfold assign_entry. now rewrite (get_property_Some _ _ _ E).
Qed.

Lemma assign_entry_not_object field id isOpen state :
  (¬ ∃ entries, state !! field = Some (VObj entries)) →
  assign_entry field id isOpen state = Throw TypeError.
Proof.
  intros H. unfold assign_entry, get_property.
  destruct (state !! field) as [[]|]; try reflexivity.
  destruct H. eauto.
Qed.

Lemma assign_entry_returns field id isOpen state state' :
  assign_entry field id isOpen state = Return state' →
  ∃ entries, state !! field = Some (VObj entries)
             ∧ state' = <[field := VObj (set_entry id isOpen entries)]> state.
Proof.
  unfold assign_entry, get_property.
  destruct (state !! field) as [[]|]; try discriminate.
  intros [= <-]. eauto.
Qed.

Lemma set_entry_lookup id isOpen entries :
  id ≠ "__proto__" → set_entry id isOpen entries !! id = Some (VBool isOpen).
Proof.
  intros H. unfold set_entry. rewrite (bool_decide_eq_false_2 _ H).
  apply lookup_insert_eq.
Qed.

Lemma set_entry_lookup_ne id isOpen entries j :
  j ≠ id → set_entry id isOpen entries !! j = entries !! j.
Proof.
  intros H. unfold set_entry.
  destruct (bool_decide (id = "__proto__")); [reflexivity |].
  now apply lookup_insert_ne.
Qed.


(** X7. Writing an entry and reading it back: when [accordions] is an
    object and [id] is not [__proto__], [accordionStateChanged] returns a
    state whose [accordions] holds [isOpen] under [id], every other id as
    before, and whose other fields are the ones it had. *)
Theorem accordionStateChanged_lookup state entries id isOpen :
  state !! "accordions" = Some (VObj entries) →
  id ≠ "__proto__" →
  ∃ state' entries',
    accordionStateChanged state id isOpen = Return state'
    ∧ state' !! "accordions" = Some (VObj entries')
    ∧ entries' !! id = Some (VBool isOpen)
    ∧ (∀ j, j ≠ id → entries' !! j = entries !! j)
    ∧ (∀ k, k ≠ "accordions" → state' !! k = state !! k).
Proof.
  intros E Hid. eexists _, _. split; [| split; [| split; [| split]]].
  - unfold accordionStateChanged. apply (assign_entry_object _ _ _ _ _ E).
  - apply lookup_insert_eq.
  - now apply set_entry_lookup.
  - intros j Hj. now apply set_entry_lookup_ne.
  - intros k Hk. now apply lookup_insert_ne.
Qed.

Lemma accordionStateChanged_lookup_witness :
  ∃ state' entries',
    accordionStateChanged initialUIState "advanced" true = Return state'
    ∧ state' !! "accordions" = Some (VObj entries')
    ∧ entries' !! "advanced" = Some (VBool true)
    ∧ (∀ j, j ≠ "advanced" → entries' !! j = (∅ : object) !! j)
    ∧ (∀ k, k ≠ "accordions" → state' !! k = initialUIState !! k).
Proof.
  apply (accordionStateChanged_lookup initialUIState ∅ "advanced" true).
  - reflexivity.
  - discriminate.
Defined.

(** X8. Writing an entry and reading it back: when [expanders] is an
    object and [id] is not [__proto__], [expanderStateChanged] returns a
    state whose [expanders] holds [isOpen] under [id], every other id as
    before, and whose other fields are the ones it had. *)
Theorem expanderStateChanged_lookup state entries id isOpen :
  state !! "expanders" = Some (VObj entries) →
  id ≠ "__proto__" →
  ∃ state' entries',
    expanderStateChanged state id isOpen = Return state'
    ∧ state' !! "expanders" = Some (VObj entries')
    ∧ entries' !! id = Some (VBool isOpen)
    ∧ (∀ j, j ≠ id → entries' !! j = entries !! j)
    ∧ (∀ k, k ≠ "expanders" → state' !! k = state !! k).
Proof.
  intros E Hid. eexists _, _. split; [| split; [| split; [| split]]].
  - unfold expanderStateChanged. apply (assign_entry_object _ _ _ _ _ E).
  - apply lookup_insert_eq.
  - now apply set_entry_lookup.
  - intros j Hj. now apply set_entry_lookup_ne.
  - intros k Hk. now apply lookup_insert_ne.
Qed.

Lemma expanderStateChanged_lookup_witness :
  ∃ state' entries',
    expanderStateChanged initialUIState "seed" false = Return state'
    ∧ state' !! "expanders" = Some (VObj entries')
    ∧ entries' !! "seed" = Some (VBool false)
    ∧ (∀ j, j ≠ "seed" → entries' !! j = (∅ : object) !! j)
    ∧ (∀ k, k ≠ "expanders" → state' !! k = initialUIState !! k).
Proof.
  apply (expanderStateChanged_lookup initialUIState ∅ "seed" false).
  - reflexivity.
  - discriminate.
Defined.

(** The record under a field is an object, or it is not. *)
Lemma entries_or_not state field :
  (∃ entries, state !! field = Some (VObj entries))
  ∨ ¬ (∃ entries, state !! field = Some (VObj entries)).
Proof.
  destruct (state !! field) as [[]|]; eauto;
    right; intros [entries H]; discriminate.
Qed.

(** Writes to two different records can be done in either order. *)
Lemma assign_entry_commute f1 f2 i1 i2 b1 b2 state :
  f1 ≠ f2 →
  and_then (assign_entry f1 i1 b1 state) (assign_entry f2 i2 b2)
  = and_then (assign_entry f2 i2 b2 state) (assign_entry f1 i1 b1).
Proof.
  intros Hf.
  destruct (entries_or_not state f1) as [[e1 E1] | N1],
           (entries_or_not state f2) as [[e2 E2] | N2].
  - rewrite (assign_entry_object _ _ _ _ _ E1), (assign_entry_object _ _ _ _ _ E2).
    cbn [and_then].
    rewrite (assign_entry_object f2 _ _ _ e2)
      by (now rewrite lookup_insert_ne).
    rewrite (assign_entry_object f1 _ _ _ e1)
      by (rewrite lookup_insert_ne; [assumption | congruence]).
    f_equal. now apply insert_insert_ne.
  - rewrite (assign_entry_object _ _ _ _ _ E1), (assign_entry_not_object f2 _ _ state N2).
    cbn [and_then]. apply assign_entry_not_object.
    intros [e He]. rewrite lookup_insert_ne in He by assumption. eauto.
  - rewrite (assign_entry_not_object f1 _ _ state N1), (assign_entry_object _ _ _ _ _ E2).
    cbn [and_then]. symmetry. apply assign_entry_not_object.
    intros [e He]. rewrite lookup_insert_ne in He by congruence. eauto.
  - now rewrite (assign_entry_not_object f1 _ _ state N1),
                (assign_entry_not_object f2 _ _ state N2).
Qed.

(** X9. An accordion update and an expander update commute: dispatched
    in either order they end in the same state, or both orders throw. *)
Theorem accordion_expander_commute state i j (b c : bool) :
  and_then (accordionStateChanged state i b) (λ s, expanderStateChanged s j c)
  = and_then (expanderStateChanged state j c) (λ s, accordionStateChanged s i b).
Proof.
  unfold accordionStateChanged, expanderStateChanged.
  now apply (assign_entry_commute "accordions" "expanders").
Qed.

End UIReducers.

(** ** What the UI slice keeps across actions *)
Section UIInvariants.

Import UI.

Implicit Types (state : object) (v : value) (k id : string) (a : action).

Lemma field_ok_insert_eq (valid : value → bool) k v state :
  field_ok valid k (<[k := v]> state) = valid v.
Proof. unfold field_ok. now rewrite lookup_insert_eq. Qed.

Lemma field_ok_insert_ne (valid : value → bool) k k' v state :
  k' ≠ k → field_ok valid k (<[k' := v]> state) = field_ok valid k state.
Proof. intros H. unfold field_ok. now rewrite lookup_insert_ne. Qed.

Lemma field_ok_record k state :
  field_ok is_boolean_record k state = true →
  ∃ entries, state !! k = Some (VObj entries)
             ∧ map_Forall (λ _ x, is_boolean x = true) entries.
Proof.
  unfold field_ok. destruct (state !! k) as [[]|]; try discriminate.
  cbn. intros H%bool_decide_eq_true. eauto.
Qed.

Lemma is_boolean_record_insert entries id (b : bool) :
  map_Forall (λ _ x, is_boolean x = true) entries →
  is_boolean_record (VObj (set_entry id b entries)) = true.
Proof.
  intros H. cbn. apply bool_decide_eq_true. unfold set_entry.
  destruct (bool_decide (id = "__proto__")); [assumption |].
  now apply map_Forall_insert_2.
Qed.

(** Every case reducer leaves [_version] alone. *)
Lemma reducer_version state a state' :
  reducer state a = Return state' → state' !! "_version" = state !! "_version".
Proof.
  destruct a; cbn;
    try (intros [= <-];
         unfold setActiveTab, setShouldShowImageDetails,
           setShouldShowProgressInViewer, on_workflowLoadRequested, set_property;
         now rewrite ?lookup_insert_ne by discriminate).
  - intros (entries & _ & ->)%assign_entry_returns.
    now rewrite lookup_insert_ne by discriminate.
  - intros (entries & _ & ->)%assign_entry_returns.
    now rewrite lookup_insert_ne by discriminate.
Qed.

(** X10. No action of the slice changes the version tag: after any
    sequence of actions that ran to its end, [_version] reads as before,
    and the state is a legacy snapshot only if it was one before. *)
Theorem dispatch_all_keeps_version state (actions : list action) state' :
  dispatch_all state actions = Return state' →
  state' !! "_version" = state !! "_version" ∧ legacy state' = legacy state.
Proof.
  intros H.
  assert (V : state' !! "_version" = state !! "_version").
  { revert state H. induction actions as [| a rest IH]; intros state H.
    - now injection H as <-.
    - cbn in H. destruct (reducer state a) as [s1 |] eqn:R; [| discriminate].
      cbn in H. rewrite (IH _ H). now apply (reducer_version _ a). }
  split; [assumption |].
  unfold legacy, has_property, get_property. now rewrite V.
Qed.

Lemma dispatch_all_keeps_version_witness :
  setActiveTab (on_workflowLoadRequested {[ "_version" := VNum 2 ]}) "upscaling"
    !! "_version"
  = ({[ "_version" := VNum 2 ]} : object) !! "_version"
  ∧ legacy (setActiveTab (on_workflowLoadRequested {[ "_version" := VNum 2 ]}) "upscaling")
    = legacy {[ "_version" := VNum 2 ]}.
Proof.
  apply (dispatch_all_keeps_version {[ "_version" := VNum 2 ]}
           [WorkflowLoadRequested; SetActiveTab "upscaling"]).
  reflexivity.
Defined.

Lemma reducer_ready state a :
  ready state → ∃ state', reducer state a = Return state' ∧ ready state'.
Proof.
  intros (V & [ea Ea] & [ee Ee]).
  destruct a; cbn;
    try (eexists; split; [reflexivity |];
         unfold ready, setActiveTab, setShouldShowImageDetails,
           setShouldShowProgressInViewer, on_workflowLoadRequested, set_property;
         rewrite ?lookup_insert_ne by discriminate; now eauto).
  - unfold accordionStateChanged. rewrite (assign_entry_object _ _ _ _ _ Ea).
    eexists; split; [reflexivity |]. unfold ready.
    rewrite lookup_insert_eq, !lookup_insert_ne by discriminate. eauto.
  - unfold expanderStateChanged. rewrite (assign_entry_object _ _ _ _ _ Ee).
    eexists; split; [reflexivity |]. unfold ready.
    rewrite lookup_insert_eq, !lookup_insert_ne by discriminate. eauto.
Qed.

Lemma dispatch_all_ready state (actions : list action) :
  ready state → ∃ state', dispatch_all state actions = Return state' ∧ ready state'.
Proof.
  revert state. induction actions as [| a rest IH]; intros state R.
  - eauto.
  - destruct (reducer_ready state a R) as (s1 & E & R1).
    cbn. rewrite E. cbn. now apply IH.
Qed.

(** X11. Starting from [initialUIState], no sequence of actions makes the
    slice throw, whatever the payloads, and the state it ends in is one
    the migrator returns unchanged: a state the slice produced survives
    being persisted and migrated on the next load. *)
Theorem dispatch_all_from_initial (actions : list action) :
  ∃ state', dispatch_all initialUIState actions = Return state'
            ∧ migrateUIState (VObj state') = Return (VObj state').
Proof.
  destruct (dispatch_all_ready initialUIState actions) as (state' & E & V & _).
  - unfold ready. split; [reflexivity |]. split; eexists; reflexivity.
  - exists state'. split; [assumption |].
    rewrite migrateUIState_object.
    now rewrite (steps_other _ _ V).
Qed.

Variable TabName : string → bool.
Hypothesis workflows_is_tab : TabName "workflows" = true.

Lemma reducer_conforms state a :
  conforms_UIState TabName state → well_typed TabName a = true →
  ∃ state', reducer state a = Return state' ∧ conforms_UIState TabName state'.
Proof.
  intros (V & T & F) W.
  unfold flags_and_panels_ok in F. rewrite !andb_true_iff in F.
  destruct F as [[[F1 F2] F3] F4].
  destruct a; cbn in W |- *.
  1-3, 6-7:
    (eexists; split; [reflexivity |];
     unfold conforms_UIState, flags_and_panels_ok, setActiveTab,
       setShouldShowImageDetails, setShouldShowProgressInViewer,
       on_workflowLoadRequested, set_property;
     rewrite ?andb_true_iff;
     rewrite ?field_ok_insert_eq, ?field_ok_insert_ne by discriminate;
     rewrite ?lookup_insert_ne by discriminate;
     cbn [is_tab_name is_boolean]; auto 10).
  - destruct (field_ok_record _ _ F3) as (entries & E & A).
    unfold accordionStateChanged. rewrite (assign_entry_object _ _ _ _ _ E).
    eexists; split; [reflexivity |].
    unfold conforms_UIState, flags_and_panels_ok.
    rewrite !andb_true_iff.
    rewrite ?field_ok_insert_eq, ?field_ok_insert_ne by discriminate.
    rewrite ?lookup_insert_ne by discriminate.
    auto 10 using is_boolean_record_insert.
  - destruct (field_ok_record _ _ F4) as (entries & E & A).
    unfold expanderStateChanged. rewrite (assign_entry_object _ _ _ _ _ E).
    eexists; split; [reflexivity |].
    unfold conforms_UIState, flags_and_panels_ok.
    rewrite !andb_true_iff.
    rewrite ?field_ok_insert_eq, ?field_ok_insert_ne by discriminate.
    rewrite ?lookup_insert_ne by discriminate.
    auto 10 using is_boolean_record_insert.
Qed.

(** X12. The slice keeps the current schema: from a state that conforms
    to it, a sequence of actions whose payloads have their declared types
    runs to its end without a throw and ends in a state that conforms. *)
Theorem dispatch_all_conforms state (actions : list action) :
  conforms_UIState TabName state →
  Forall (λ a, well_typed TabName a = true) actions →
  ∃ state', dispatch_all state actions = Return state'
            ∧ conforms_UIState TabName state'.
Proof.
  revert state. induction actions as [| a rest IH]; intros state C W.
  - eauto.
  - apply Forall_cons in W as [Wa W].
    destruct (reducer_conforms state a C Wa) as (s1 & E & C1).
    cbn. rewrite E. cbn. now apply IH.
Qed.

End UIInvariants.

Lemma dispatch_all_conforms_witness :
  ∃ state',
    UI.dispatch_all UI.initialUIState
      [UI.SetActiveTab "upscaling";
       UI.AccordionStateChanged "advanced" true;
       UI.WorkflowLoadRequested]
    = Return state'
    ∧ UI.conforms_UIState (λ s, bool_decide (s ∈ UI.TABS_WITH_LEFT_PANEL)) state'.
Proof.
  apply (dispatch_all_conforms (λ s, bool_decide (s ∈ UI.TABS_WITH_LEFT_PANEL))).
  - reflexivity.
  - repeat split; vm_compute; reflexivity.
  - repeat (apply List.Forall_cons; [reflexivity |]). apply List.Forall_nil.
Defined.

(** ** The panel selectors *)
Section PanelSelectors.

Import UI Selectors.

(** X13. The two panel selectors agree on every state of the store, and
    they hold exactly when [activeTab] is one of the strings ['canvas'],
    ['upscaling'], ['workflows']; with [activeTab] missing or not a string
    they are false. *)
Theorem panel_selectors_agree (s : RootState) :
  selectWithLeftPanel s = selectWithRightPanel s
  ∧ (selectWithLeftPanel s = true
     ↔ ui s !! "activeTab" = Some (VStr "canvas")
       ∨ ui s !! "activeTab" = Some (VStr "upscaling")
       ∨ ui s !! "activeTab" = Some (VStr "workflows")).
Proof.
  split; [reflexivity |].
  unfold selectWithLeftPanel, createSelector, selectUiSlice, get_property, includes.
  destruct (ui s !! "activeTab") as [[| | | |tab|]|]; cbn [default from_option id];
    try (split; [discriminate | intros [H | [H | H]]; discriminate]).
  rewrite bool_decide_eq_true. unfold TABS_WITH_LEFT_PANEL.
  rewrite !elem_of_cons, elem_of_nil.
  split.
  - intros [-> | [-> | [-> | []]]]; auto.
  - intros [[= ->] | [[= ->] | [= ->]]]; auto.
Qed.

(** X14. After [workflowLoadRequested] the active tab is ['workflows']
    and both panels are shown, whatever the state was. *)
Theorem workflowLoadRequested_panels (s : RootState) :
  on_workflowLoadRequested (ui s) !! "activeTab" = Some (VStr "workflows")
  ∧ selectWithLeftPanel (with_ui (on_workflowLoadRequested (ui s)) s) = true
  ∧ selectWithRightPanel (with_ui (on_workflowLoadRequested (ui s)) s) = true.
Proof.
  assert (E : on_workflowLoadRequested (ui s) !! "activeTab" = Some (VStr "workflows"))
    by apply lookup_insert_eq.
  split; [assumption |].
  unfold selectWithLeftPanel, selectWithRightPanel, createSelector, selectUiSlice.
  cbn [with_ui ui]. rewrite (get_property_Some _ _ _ E). split; reflexivity.
Qed.

(** X15. A legacy snapshot, once migrated, opens on a tab with both
    panels: the tab the last upgrade writes is one of the tabs of the two
    lists. *)
Theorem migrated_legacy_panels (s : RootState) (o : object) :
  legacy o = true →
  selectWithLeftPanel (with_ui (migrateUIState_steps o) s) = true
  ∧ selectWithRightPanel (with_ui (migrateUIState_steps o) s) = true.
Proof.
  intros L. rewrite (steps_legacy _ L).
  unfold selectWithLeftPanel, selectWithRightPanel, createSelector, selectUiSlice.
  cbn [with_ui ui]. rewrite (get_property_Some _ _ _ (upgraded_activeTab o)).
  split; reflexivity.
Qed.

Lemma migrated_legacy_panels_witness :
  selectWithLeftPanel
    (with_ui (migrateUIState_steps {[ "activeTab" := VStr "models" ]})
       {| canvasSettings := CanvasSettings.initialState; ui := initialUIState |})
  = true
  ∧ selectWithRightPanel
      (with_ui (migrateUIState_steps {[ "activeTab" := VStr "models" ]})
         {| canvasSettings := CanvasSettings.initialState; ui := initialUIState |})
    = true.
Proof.
  apply (migrated_legacy_panels
           {| canvasSettings := CanvasSettings.initialState; ui := initialUIState |}
           {[ "activeTab" := VStr "models" ]}).
  reflexivity.
Defined.

End PanelSelectors.

(** ** The reducers of the canvas-settings slice *)
Section CanvasReducers.

Import CanvasSettings Selectors.

Implicit Types (state : CanvasSettingsState) (s : RootState).

(** Goals over the nine toggle reducers, one reducer at a time. *)
Ltac each_toggle tac :=
  unfold toggle_reducers;
  repeat (apply List.Forall_cons; [tac |]); apply List.Forall_nil.

(** X16. The toggle reducers commute: any two of them, dispatched in
    either order, give the same state. *)
Theorem toggles_commute :
  Forall (λ r1, Forall (λ r2, ∀ state, r1 (r2 state) = r2 (r1 state)) toggle_reducers)
    toggle_reducers.
Proof.
  each_toggle ltac:(each_toggle ltac:(intros state; reflexivity)).
Qed.

Lemma iter_involution {A} (f : A → A) :
  (∀ x, f (f x) = x) →
  ∀ (n : nat) x, Nat.iter n f x = if Nat.even n then x else f x.
Proof.
  intros Hf n. induction n as [| n IH]; intros x; [reflexivity |].
  rewrite Nat.even_succ, <- Nat.negb_even, Nat.iter_succ, IH.
  destruct (Nat.even n); cbn [negb]; [reflexivity | apply Hf].
Qed.

(** X17. Dispatching a toggle [n] times in a row leaves the state as it
    was when [n] is even, and as after one dispatch when [n] is odd. *)
Theorem toggles_parity :
  Forall (λ r, ∀ (n : nat) state,
               Nat.iter n r state = if Nat.even n then state else r state)
    toggle_reducers.
Proof.
  each_toggle ltac:(apply iter_involution; intros state; destruct state;
                    cbv -[negb]; now rewrite negb_involutive).
Qed.

(** X18. A toggle is never a no-op, and it leaves every setting that has
    no toggle as it was: the two widths, the colour, [clipToBbox],
    [invertScrollForToolWidth] and [sendToCanvas]. *)
Theorem toggles_change_flags_only :
  Forall (λ r, ∀ state,
               r state ≠ state
               ∧ brushWidth (r state) = brushWidth state
               ∧ eraserWidth (r state) = eraserWidth state
               ∧ color (r state) = color state
               ∧ clipToBbox (r state) = clipToBbox state
               ∧ invertScrollForToolWidth (r state) = invertScrollForToolWidth state
               ∧ sendToCanvas (r state) = sendToCanvas state)
    toggle_reducers.
Proof.
  each_toggle ltac:(intros state; split; [| repeat split];
                    destruct state; cbv -[negb]; intros H; injection H;
                    repeat match goal with
                           | |- negb ?b = ?b → _ => destruct b; discriminate
                           | |- _ → _ => intros _
                           end).
Qed.

(** X19. Each flag's selector sees its own toggle and no other: after the
    [i]-th toggle reducer ran on the slice, the [j]-th selector gives the
    negation of what it gave when [i = j] and the same value otherwise;
    [selectSendToCanvas] and the UI slice are as they were. *)
Theorem toggle_selectors_table (i j : nat) r sel r' sel' s :
  toggle_selectors !! i = Some (r, sel) →
  toggle_selectors !! j = Some (r', sel') →
  sel' (with_canvasSettings (r (canvasSettings s)) s)
  = (if decide (i = j) then negb (sel' s) else sel' s)
  ∧ selectSendToCanvas (with_canvasSettings (r (canvasSettings s)) s)
    = selectSendToCanvas s
  ∧ selectUiSlice (with_canvasSettings (r (canvasSettings s)) s) = selectUiSlice s.
Proof.
  intros Hi Hj.
  destruct i as [|[|[|[|[|[|[|[|[|i]]]]]]]]]; cbn in Hi; try discriminate;
    injection Hi as <- <-;
    destruct j as [|[|[|[|[|[|[|[|[|j]]]]]]]]]; cbn in Hj; try discriminate;
    injection Hj as <- <-;
    repeat split.
Qed.

Lemma toggle_selectors_table_witness :
  selectAutoSave
    (with_canvasSettings (settingsDynamicGridToggled initialState)
       {| canvasSettings := initialState; ui := UI.initialUIState |})
  = selectAutoSave {| canvasSettings := initialState; ui := UI.initialUIState |}
  ∧ selectSendToCanvas
      (with_canvasSettings (settingsDynamicGridToggled initialState)
         {| canvasSettings := initialState; ui := UI.initialUIState |})
    = selectSendToCanvas {| canvasSettings := initialState; ui := UI.initialUIState |}
  ∧ selectUiSlice
      (with_canvasSettings (settingsDynamicGridToggled initialState)
         {| canvasSettings := initialState; ui := UI.initialUIState |})
    = selectUiSlice {| canvasSettings := initialState; ui := UI.initialUIState |}.
Proof.
  apply (toggle_selectors_table 0 1
           settingsDynamicGridToggled selectDynamicGrid
           settingsAutoSaveToggled selectAutoSave
           {| canvasSettings := initialState; ui := UI.initialUIState |});
    reflexivity.
Defined.

(** X20. The reducers that assign a payload as it is: the setting reads
    back as the payload, the last of two payloads wins, and dispatching
    the value the setting has changes nothing. *)
Theorem payload_reducers_assign :
  (∀ state p q,
      clipToBbox (settingsClipToBboxChanged state p) = p
      ∧ settingsClipToBboxChanged (settingsClipToBboxChanged state p) q
        = settingsClipToBboxChanged state q
      ∧ settingsClipToBboxChanged state (clipToBbox state) = state)
  ∧ (∀ state p q,
      color (settingsColorChanged state p) = p
      ∧ settingsColorChanged (settingsColorChanged state p) q
        = settingsColorChanged state q
      ∧ settingsColorChanged state (color state) = state)
  ∧ (∀ state p q,
      invertScrollForToolWidth (settingsInvertScrollForToolWidthChanged state p) = p
      ∧ settingsInvertScrollForToolWidthChanged
          (settingsInvertScrollForToolWidthChanged state p) q
        = settingsInvertScrollForToolWidthChanged state q
      ∧ settingsInvertScrollForToolWidthChanged state (invertScrollForToolWidth state)
        = state)
  ∧ (∀ state p q,
      sendToCanvas (settingsSendToCanvasChanged state p) = p
      ∧ settingsSendToCanvasChanged (settingsSendToCanvasChanged state p) q
        = settingsSendToCanvasChanged state q
      ∧ settingsSendToCanvasChanged state (sendToCanvas state) = state).
Proof.
  repeat split; destruct state; reflexivity.
Qed.

Variable Math_round : float → float.

(** X21. The two width reducers, for whatever rounding the runtime does:
    the width stored is the rounded payload and the other width is
    untouched; the two reducers commute; the last of two payloads wins;
    and dispatching the width a tool has changes nothing exactly when
    rounding leaves that width as it is. *)
Theorem width_reducers state (p q : float) :
  brushWidth (settingsBrushWidthChanged Math_round state p) = Math_round p
  ∧ eraserWidth (settingsBrushWidthChanged Math_round state p) = eraserWidth state
  ∧ eraserWidth (settingsEraserWidthChanged Math_round state p) = Math_round p
  ∧ brushWidth (settingsEraserWidthChanged Math_round state p) = brushWidth state
  ∧ settingsBrushWidthChanged Math_round (settingsEraserWidthChanged Math_round state q) p
    = settingsEraserWidthChanged Math_round (settingsBrushWidthChanged Math_round state p) q
  ∧ settingsBrushWidthChanged Math_round (settingsBrushWidthChanged Math_round state p) q
    = settingsBrushWidthChanged Math_round state q
  ∧ settingsEraserWidthChanged Math_round (settingsEraserWidthChanged Math_round state p) q
    = settingsEraserWidthChanged Math_round state q
  ∧ (settingsBrushWidthChanged Math_round state (brushWidth state) = state
     ↔ Math_round (brushWidth state) = brushWidth state)
  ∧ (settingsEraserWidthChanged Math_round state (eraserWidth state) = state
     ↔ Math_round (eraserWidth state) = eraserWidth state).
Proof.
  repeat split; try reflexivity; destruct state;
    unfold settingsBrushWidthChanged, settingsEraserWidthChanged,
      assign_brushWidth, assign_eraserWidth; cbn.
  - now intros [= H].
  - intros H. now rewrite H.
  - now intros [= H].
  - intros H. now rewrite H.
Qed.

End CanvasReducers.

(** ** Entries of one record, and records the migrator does not create *)
Section Entries.

Import UI.

Implicit Types (state entries : object) (id i j : string) (b c : bool).

Lemma set_entry_twice id b c entries :
  set_entry id c (set_entry id b entries) = set_entry id c entries.
Proof.
  unfold set_entry.
  destruct (bool_decide (id = "__proto__")); [reflexivity |].
  apply insert_insert_eq.
Qed.

Lemma set_entry_commute i j b c entries :
  i ≠ j →
  set_entry i b (set_entry j c entries) = set_entry j c (set_entry i b entries).
Proof.
  intros H. unfold set_entry, set_property.
  destruct (bool_decide (i = "__proto__")), (bool_decide (j = "__proto__"));
    try reflexivity.
  now apply insert_insert_ne.
Qed.

Lemma assign_entry_twice field id b c state :
  and_then (assign_entry field id b state) (assign_entry field id c)
  = assign_entry field id c state.
Proof.
  destruct (entries_or_not state field) as [[e E] | N].
  - rewrite !(assign_entry_object _ _ _ _ _ E). cbn [and_then].
    rewrite (assign_entry_object field id c _ (set_entry id b e))
      by apply lookup_insert_eq.
    now rewrite insert_insert_eq, set_entry_twice.
  - now rewrite !(assign_entry_not_object _ _ _ _ N).
Qed.

Lemma assign_entry_commute_ids field i j b c state :
  i ≠ j →
  and_then (assign_entry field i b state) (assign_entry field j c)
  = and_then (assign_entry field j c state) (assign_entry field i b).
Proof.
  intros H. destruct (entries_or_not state field) as [[e E] | N].
  - rewrite !(assign_entry_object _ _ _ _ _ E). cbn [and_then].
    rewrite (assign_entry_object field j c _ (set_entry i b e))
      by apply lookup_insert_eq.
    rewrite (assign_entry_object field i b _ (set_entry j c e))
      by apply lookup_insert_eq.
    rewrite !insert_insert_eq. do 3 f_equal. now apply set_entry_commute.
  - now rewrite !(assign_entry_not_object _ _ _ _ N).
Qed.

(** X22. Two updates of the same record: for one id the later one wins,
    as if the earlier had not been dispatched; for two ids the order
    does not matter.  This holds of the accordions and of the expanders,
    for every id: under [__proto__] neither update writes anything. *)
Theorem entry_updates_compose state i j b c :
  and_then (accordionStateChanged state i b) (λ s, accordionStateChanged s i c)
  = accordionStateChanged state i c
  ∧ and_then (expanderStateChanged state i b) (λ s, expanderStateChanged s i c)
    = expanderStateChanged state i c
  ∧ (i ≠ j →
     and_then (accordionStateChanged state i b) (λ s, accordionStateChanged s j c)
     = and_then (accordionStateChanged state j c) (λ s, accordionStateChanged s i b))
  ∧ (i ≠ j →
     and_then (expanderStateChanged state i b) (λ s, expanderStateChanged s j c)
     = and_then (expanderStateChanged state j c) (λ s, expanderStateChanged s i b)).
Proof.
  unfold accordionStateChanged, expanderStateChanged.
  split; [| split; [| split]].
  - apply (assign_entry_twice "accordions").
  - apply (assign_entry_twice "expanders").
  - apply (assign_entry_commute_ids "accordions").
  - apply (assign_entry_commute_ids "expanders").
Qed.


End Entries.
